(** * The section parser of docker.js

    A shallow embedding of [Docker.prototype.parseSections] and
    [Docker.prototype.languageParams] (src/docker.js), and the properties
    of the line-by-line state machine that splits a source file into
    (comment, code) sections. *)

From Stdlib Require Import String Ascii List NArith Bool Lia.
Import ListNotations.

Local Open Scope N_scope.
Local Open Scope list_scope.

(** ** JavaScript strings

    A JavaScript string is a sequence of UTF-16 code units. Regular
    expressions without the [u] flag work on code units, so a code unit
    is all the parser ever looks at. *)

Definition char := N.
Definition jsstring := list char.

(** A string literal of the source, given as its ASCII text. *)
Definition str (s : string) : jsstring :=
  map N_of_ascii (list_ascii_of_string s).

(** The line feed, ['\n']. *)
Definition nl : char := 10.

Fixpoint jsstring_eqb (a b : jsstring) : bool :=
  match a, b with
  | [], [] => true
  | x :: a', y :: b' => (x =? y) && jsstring_eqb a' b'
  | _, _ => false
  end.

(** A string used as a condition ([if(section.code)]): the empty string
    is the only falsy one. *)
Definition truthy (s : jsstring) : bool :=
  match s with
  | [] => false
  | _ :: _ => true
  end.

(** [data.split('\n')]: the pieces between line feeds; never empty, the
    empty string has the one piece [''] and a text that ends in a line
    feed has a last piece ['']. *)
Fixpoint split_nl (data : jsstring) : list jsstring :=
  match data with
  | [] => [[]]
  | c :: rest =>
      if c =? nl then [] :: split_nl rest
      else match split_nl rest with
           | [] => [[c]]
           | piece :: pieces => (c :: piece) :: pieces
           end
  end.

(** ** Regular expressions

    The parser uses a regular expression in two ways only:
    [line.match(re)] as a condition (is there a match anywhere in the
    line) and [line.replace(re, '')] (the line without its first match).
    A pattern is modelled by these two operations. *)

Record RegExp := {
  re_match : jsstring -> bool;
  re_remove : jsstring -> jsstring
}.

(** The class [\s]: WhiteSpace and LineTerminator of ECMAScript. *)
Definition isWhiteSpace (c : char) : bool :=
  existsb (N.eqb c)
    [9; 10; 11; 12; 13; 32; 160; 5760; 8232; 8233; 8239; 8287; 12288; 65279]
  || ((8192 <=? c) && (c <=? 8202)).

(** [s.match(/^\s*$/)]: no flag, so [^] and [$] are the two ends of the
    whole string. *)
Definition isBlank (s : jsstring) : bool := forallb isWhiteSpace s.

Fixpoint startsWith (pat s : jsstring) : bool :=
  match pat, s with
  | [], _ => true
  | _ :: _, [] => false
  | a :: pat', b :: s' => (a =? b) && startsWith pat' s'
  end.

Fixpoint includes (pat s : jsstring) : bool :=
  match s with
  | [] => startsWith pat []
  | _ :: s' => startsWith pat s || includes pat s'
  end.

Fixpoint removeFirst (pat s : jsstring) : jsstring :=
  match s with
  | [] => []
  | c :: s' =>
      if startsWith pat s then skipn (List.length pat) s
      else c :: removeFirst pat s'
  end.

(** The greedy [^\s*] prefix. *)
Fixpoint skipSpaces (s : jsstring) : jsstring :=
  match s with
  | [] => []
  | c :: s' => if isWhiteSpace c then skipSpaces s' else s
  end.

(** The greedy [\s?]. *)
Definition skipOneSpace (s : jsstring) : jsstring :=
  match s with
  | [] => []
  | c :: s' => if isWhiteSpace c then s' else s
  end.

(** A pattern that is a literal text, such as [/\/\*/]. *)
Definition literal (pat : jsstring) : RegExp :=
  {| re_match := includes pat;
     re_remove := removeFirst pat |}.

(** A pattern [/^\s*lit/] followed by [tail] (nothing, or [\s?]). No
    whitespace starts [lit], so the greedy [\s*] never gives back. *)
Definition indented (lit : jsstring) (tail : jsstring -> jsstring) : RegExp :=
  {| re_match := fun s => startsWith lit (skipSpaces s);
     re_remove := fun s =>
       if startsWith lit (skipSpaces s)
       then tail (skipn (List.length lit) (skipSpaces s))
       else s |}.

(** ** Language parameters *)

Record LanguageParams := {
  name : jsstring;
  comment : jsstring;
  commentRegex : RegExp;
  commentsIgnore : RegExp;
  multilineStart : RegExp;
  multilineEnd : RegExp;
  divText : jsstring
}.

(** The parameters of the [case '.js'] of [languageParams]; [divHtml] is
    read by [highlight] only and left out. *)
Definition javascript : LanguageParams :=
  {| name := str "javascript";
     comment := str "//";
     commentRegex := indented (str "//") skipOneSpace;
     commentsIgnore := indented (str "//=") (fun s => s);
     multilineStart := literal (str "/*");
     multilineEnd := literal (str "*/");
     divText := [nl] ++ str "//----{DIVIDER_THING}----" ++ [nl] |}.

(** A call either returns or throws; a thrown value is kept as the text
    it prints as. *)
Inductive Completion (A : Type) : Type :=
| Normal (value : A)
| Throw (thrown : jsstring).
Arguments Normal {A} value.
Arguments Throw {A} thrown.

(** [languageParams], on the extension [path.extname(filename)]. *)
Definition languageParams (ext : jsstring) : Completion LanguageParams :=
  if jsstring_eqb ext (str ".js") then Normal javascript
  else Throw (str "Unknown language").

(** ** Sections and the parser state *)

Record Sec := {
  docs : jsstring;
  code : jsstring
}.

Definition emptySec : Sec := {| docs := []; code := [] |}.

(** The local variables of [parseSections], and what it has written to
    the console so far. *)
Record State := {
  sections : list Sec;
  section : Sec;
  inMultiLineComment : bool;
  multiLine : jsstring;
  console : list jsstring
}.

Definition initState : State :=
  {| sections := [];
     section := emptySec;
     inMultiLineComment := false;
     multiLine := [];
     console := [] |}.

(** The test of lines 234 and 242: a section is worth keeping unless its
    code and its docs are both blank. *)
Definition worthKeeping (s : Sec) : bool :=
  negb (isBlank (code s)) || negb (isBlank (docs s)).

(** "Store away the last section and start a new one" (lines 233-236 and
    241-244, the same four lines twice). *)
Definition storeSection (st : State) : State :=
  if truthy (code (section st)) then
    {| sections := if worthKeeping (section st)
                   then sections st ++ [section st]
                   else sections st;
       section := emptySec;
       inMultiLineComment := inMultiLineComment st;
       multiLine := multiLine st;
       console := console st |}
  else st.

Definition addDocs (text : jsstring) (s : Sec) : Sec :=
  {| docs := docs s ++ text; code := code s |}.

Definition addCode (text : jsstring) (s : Sec) : Sec :=
  {| docs := docs s; code := code s ++ text |}.

Section Parser.

(** [this.doxTemplate(dox.parseComments(multiLine)[0])], the body of the
    [try]: the text it returns, or what it throws. dox and the template
    res/dox.jst are outside this file. *)
Variable doxRender : jsstring -> Completion jsstring.

Section Loop.

Variable params : LanguageParams.

(** A line that opens a multi-line comment (line 231). *)
Definition opensMultiLine (line : jsstring) : bool :=
  re_match (multilineStart params) line
  && negb (re_match (multilineEnd params) line).

(** A single-line comment to put in the docs (line 239). *)
Definition isSingleComment (line : jsstring) : bool :=
  re_match (commentRegex params) line
  && negb (re_match (commentsIgnore params) line).

(** The body of the loop over the lines (lines 210-248). *)
Definition parseLine (st : State) (line : jsstring) : State :=
  if inMultiLineComment st then
    if re_match (multilineEnd params) line then
      let whole := multiLine st ++ line ++ [nl] in
      match doxRender whole with
      | Normal rendered =>
          {| sections := sections st;
             section := addDocs rendered (section st);
             inMultiLineComment := false;
             multiLine := [];
             console := console st |}
      | Throw e =>
          {| sections := sections st;
             section := addDocs whole (section st);
             inMultiLineComment := false;
             multiLine := [];
             console := console st ++ [str "Dox error: " ++ e] |}
      end
    else
      {| sections := sections st;
         section := section st;
         inMultiLineComment := true;
         multiLine := multiLine st ++ line ++ [nl];
         console := console st |}
  else if opensMultiLine line then
    let st' := storeSection st in
    {| sections := sections st';
       section := section st';
       inMultiLineComment := true;
       multiLine := line;
       console := console st' |}
  else if isSingleComment line then
    let st' := storeSection st in
    {| sections := sections st';
       section := addDocs (re_remove (commentRegex params) line ++ [nl])
                          (section st');
       inMultiLineComment := inMultiLineComment st';
       multiLine := multiLine st';
       console := console st' |}
  else if negb (re_match (commentsIgnore params) line) then
    {| sections := sections st;
       section := addCode (line ++ [nl]) (section st);
       inMultiLineComment := inMultiLineComment st;
       multiLine := multiLine st;
       console := console st |}
  else st.

(** The loop, from any state. *)
Definition runFrom (st : State) (lines : list jsstring) : State :=
  fold_left parseLine lines st.

Definition runLines (lines : list jsstring) : State :=
  runFrom initState lines.

(** [sections.push(section); return sections;] (lines 250-251). *)
Definition finish (st : State) : list Sec :=
  sections st ++ [section st].

(** [parseSections] once the parameters are known (lines 195-251). *)
Definition parseWith (data : jsstring) : list Sec :=
  finish (runLines (split_nl data)).

End Loop.

(** [parseSections(data, filename)], on the extension of [filename]. *)
Definition parseSections (data ext : jsstring) : Completion (list Sec) :=
  match languageParams ext with
  | Normal params => Normal (parseWith params data)
  | Throw e => Throw e
  end.

End Parser.

(** Two stand-ins for dox, to run the parser on concrete texts: one that
    throws on every block and one that returns the block as it is. *)
Definition doxThrows : jsstring -> Completion jsstring :=
  fun _ => Throw (str "TypeError").

Definition doxEcho : jsstring -> Completion jsstring :=
  fun block => Normal block.

(** [a; b; c] joined with line feeds, to write a text line by line. *)
Fixpoint joinLines (lines : list jsstring) : jsstring :=
  match lines with
  | [] => []
  | [l] => l
  | l :: rest => l ++ nl :: joinLines rest
  end.

(** ** The code lines of a text, as the specification words them

    Follows the specification, not the source: the code lines are "the
    lines not consumed as comments", less those that match the ignore
    pattern. A line is consumed as a comment when it lies in a multi-line
    block (from the line that opens it to the line that closes it) or
    matches the single-line comment pattern. *)
Fixpoint specCodeLines (params : LanguageParams) (inBlock : bool)
    (lines : list jsstring) : list jsstring :=
  match lines with
  | [] => []
  | l :: rest =>
      if inBlock then
        specCodeLines params (negb (re_match (multilineEnd params) l)) rest
      else if opensMultiLine params l then specCodeLines params true rest
      else
        let consumed := re_match (commentRegex params) l in
        let ignored := re_match (commentsIgnore params) l in
        if negb consumed && negb ignored
        then l :: specCodeLines params false rest
        else specCodeLines params false rest
  end.

(** The text of a list of lines, each one with its line feed. *)
Definition textOf (lines : list jsstring) : jsstring :=
  flat_map (fun l => l ++ [nl]) lines.

(** The code of a sequence of sections, end to end. *)
Definition allCode (secs : list Sec) : jsstring :=
  concat (map code secs).

(** ** Vocabulary of the properties *)

(** Every section pushed in the loop has code. *)
Definition hasCode (s : Sec) : Prop := code s <> [].

(** No line of [body] closes a block. *)
Definition noneCloses (params : LanguageParams) (body : list jsstring) : Prop :=
  Forall (fun l => re_match (multilineEnd params) l = false) body.

(** A line that goes to the docs as a single-line comment: it does not
    open a block, matches the comment pattern and is not ignored. *)
Definition commentLine (params : LanguageParams) (line : jsstring) : Prop :=
  opensMultiLine params line = false /\ isSingleComment params line = true.

(** The comments of a run, stripped, each with its line feed. *)
Definition strippedText (params : LanguageParams)
    (comments : list jsstring) : jsstring :=
  flat_map (fun c => re_remove (commentRegex params) c ++ [nl]) comments.

(** The test of lines 234 and 242 in terms of blank texts: the code or
    the docs of the section hold a character that is not whitespace. *)
Definition notBothBlank (s : Sec) : bool :=
  negb (isBlank (code s) && isBlank (docs s)).

(** The section the parser has formed when it reads [line] in state
    [st]: at a section boundary (outside a block, a line that opens a
    block or is a single-line comment), the current section when it has
    code; otherwise none. These are the sections that lines 233-236 and
    241-244 either push or discard. *)
Definition formedAt (params : LanguageParams) (st : State)
    (line : jsstring) : list Sec :=
  if negb (inMultiLineComment st)
     && (opensMultiLine params line || isSingleComment params line)
  then match code (section st) with
       | [] => []
       | _ :: _ => [section st]
       end
  else [].

(** The sections formed at the boundaries of [lines], in order, on the
    run of the parser from [st]. *)
Fixpoint formedFrom (doxRender : jsstring -> Completion jsstring)
    (params : LanguageParams) (st : State) (lines : list jsstring)
    : list Sec :=
  match lines with
  | [] => []
  | l :: rest =>
      formedAt params st l
      ++ formedFrom doxRender params (parseLine doxRender params st l) rest
  end.

(** ** Texts and states to run the parser on *)

(** The text ["// hello\nvar x = 1;\n"]. *)
Definition helloText : jsstring :=
  str "// hello" ++ [nl] ++ str "var x = 1;" ++ [nl].

(** The text ["\n// a\nx"]: an empty line, a comment, a line of code. *)
Definition blankFirstText : jsstring :=
  joinLines [[]; str "// a"; str "x"].

(** Two texts that differ by one ignored line, [//= */], read while a
    block is open. *)
Definition ignoredInBlockText : jsstring :=
  joinLines [str "/*"; str "//= */"; str "var x = 1;"].

Definition withoutIgnoredText : jsstring :=
  joinLines [str "/*"; str "var x = 1;"].

(** The state after one empty line: the code is a line feed, the docs
    are empty. *)
Definition afterBlankLine : State :=
  runLines doxThrows javascript [[]].

(** The state after the one line of code [var a;]. *)
Definition afterCode : State :=
  runLines doxThrows javascript [str "var a;"].

(** ** The Docker object and its file queue

    The constructor, [outFile], [canHandleFile] and the queue of
    [queueFile], [nextFile] and [generateDoc]. *)

Definition slash : char := 47.
Definition dollar : char := 36.

(** [s.replace(/\/$/, '')]: one slash less at the very end. *)
Fixpoint stripTrailingSlash (s : jsstring) : jsstring :=
  match s with
  | [] => []
  | c :: rest =>
      match rest with
      | [] => if c =? slash then [] else [c]
      | _ :: _ => c :: stripTrailingSlash rest
      end
  end.

Record Docker := {
  inDir : jsstring;
  outDir : jsstring;
  running : bool;
  fileQueue : list jsstring
}.

(** [new Docker(inDir, outDir)] (lines 51-56). *)
Definition newDocker (inDirArg outDirArg : jsstring) : Docker :=
  {| inDir := stripTrailingSlash inDirArg;
     outDir := outDirArg;
     running := false;
     fileQueue := [] |}.

(** The first place where [pat] occurs in [s]: what is before it and
    what is after it. *)
Fixpoint findFirst (pat s : jsstring) : option (jsstring * jsstring) :=
  if startsWith pat s then Some ([], skipn (List.length pat) s)
  else match s with
       | [] => None
       | c :: s' =>
           match findFirst pat s' with
           | Some (before, after) => Some (c :: before, after)
           | None => None
           end
       end.

(** The replacement text of [replace] for a pattern that is a string (no
    captures): [$$] is a dollar, [$&] the match, [$`] the text before it,
    [$'] the text after it, and any other dollar stands for itself. *)
Fixpoint getSubstitution (matched before after repl : jsstring) : jsstring :=
  match repl with
  | [] => []
  | c :: rest =>
      if c =? dollar then
        match rest with
        | [] => [c]
        | d :: rest' =>
            if d =? dollar
            then dollar :: getSubstitution matched before after rest'
            else if d =? 38
            then matched ++ getSubstitution matched before after rest'
            else if d =? 96
            then before ++ getSubstitution matched before after rest'
            else if d =? 39
            then after ++ getSubstitution matched before after rest'
            else c :: getSubstitution matched before after rest
        end
      else c :: getSubstitution matched before after rest
  end.

(** [s.replace(pat, repl)] for two strings: the first occurrence only. *)
Definition replaceString (pat repl s : jsstring) : jsstring :=
  match findFirst pat s with
  | Some (before, after) =>
      before ++ getSubstitution pat before after repl ++ after
  | None => s
  end.

(** [outFile] (lines 402-404). *)
Definition outFile (d : Docker) (filename : jsstring) : jsstring :=
  replaceString (inDir d) (outDir d) filename ++ str ".html".

(** The Docker object together with the calls of [generateDoc]: those
    whose callback is still to come, and all of them in the order they
    were made. *)
Record Driver := {
  docker : Docker;
  generating : list jsstring;
  generated : list jsstring
}.

Definition newDriver (inDirArg outDirArg : jsstring) : Driver :=
  {| docker := newDocker inDirArg outDirArg;
     generating := [];
     generated := [] |}.

(** What happens to a Docker object: a call of [queueFile], or the
    callback of the [i]-th call of [generateDoc] still under way. *)
Inductive Event :=
| QueueFile (filename : jsstring)
| GenerateDocDone (i : nat).

(** The list without its [i]-th entry, when it has one. *)
Fixpoint dropNth {A : Type} (i : nat) (l : list A) : option (list A) :=
  match l, i with
  | [], _ => None
  | _ :: rest, O => Some rest
  | x :: rest, S j =>
      match dropNth j rest with
      | Some rest' => Some (x :: rest')
      | None => None
      end
  end.

Section Queue.

(** [path.extname], of Node. *)
Variable extname : jsstring -> jsstring.

(** [canHandleFile] (lines 151-153). *)
Definition canHandleFile (filename : jsstring) : bool :=
  jsstring_eqb (extname filename) (str ".js").

(** [generateDoc] up to its first callback (lines 164-168): it raises the
    flag and starts reading the file. *)
Definition generateDoc (w : Driver) (filename : jsstring) : Driver :=
  {| docker := {| inDir := inDir (docker w);
                  outDir := outDir (docker w);
                  running := true;
                  fileQueue := fileQueue (docker w) |};
     generating := generating w ++ [filename];
     generated := generated w ++ [filename] |}.

(** [nextFile] (lines 129-141). *)
Definition nextFile (w : Driver) : Driver :=
  match fileQueue (docker w) with
  | filename :: rest =>
      generateDoc
        {| docker := {| inDir := inDir (docker w);
                        outDir := outDir (docker w);
                        running := running (docker w);
                        fileQueue := rest |};
           generating := generating w;
           generated := generated w |}
        filename
  | [] =>
      {| docker := {| inDir := inDir (docker w);
                      outDir := outDir (docker w);
                      running := false;
                      fileQueue := [] |};
         generating := generating w;
         generated := generated w |}
  end.

(** [queueFile] (lines 115-122). *)
Definition queueFile (w : Driver) (filename : jsstring) : Driver :=
  if negb (canHandleFile filename) then w
  else
    let w' :=
      {| docker := {| inDir := inDir (docker w);
                      outDir := outDir (docker w);
                      running := running (docker w);
                      fileQueue := fileQueue (docker w) ++ [filename] |};
         generating := generating w;
         generated := generated w |} in
    if negb (running (docker w')) then nextFile w' else w'.

(** One event; the callback of a call that is not under way cannot
    come. *)
Definition handle (w : Driver) (e : Event) : option Driver :=
  match e with
  | QueueFile filename => Some (queueFile w filename)
  | GenerateDocDone i =>
      match dropNth i (generating w) with
      | Some others =>
          Some (nextFile {| docker := docker w;
                            generating := others;
                            generated := generated w |})
      | None => None
      end
  end.

Fixpoint handleAll (w : Driver) (events : list Event) : option Driver :=
  match events with
  | [] => Some w
  | e :: later =>
      match handle w e with
      | Some w' => handleAll w' later
      | None => None
      end
  end.

(** The files handed to [queueFile], in order. *)
Fixpoint queuedFiles (events : list Event) : list jsstring :=
  match events with
  | [] => []
  | QueueFile filename :: later => filename :: queuedFiles later
  | GenerateDocDone _ :: later => queuedFiles later
  end.

End Queue.

(** ** The input of pygments *)

(** [parts.join(sep)]. *)
Fixpoint joinWith (sep : jsstring) (parts : list jsstring) : jsstring :=
  match parts with
  | [] => []
  | x :: rest =>
      match rest with
      | [] => x
      | _ :: _ => x ++ sep ++ joinWith sep rest
      end
  end.

(** The text [highlight] writes to the standard input of pygments
    (lines 330-334): the code of the sections, a divider between each
    two. *)
Definition pygmentsInput (params : LanguageParams) (secs : list Sec)
    : jsstring :=
  joinWith (divText params) (map code secs).

(** The one line of the JavaScript divider (line 276), without the line
    feeds around it. *)
Definition dividerLine : jsstring := str "//----{DIVIDER_THING}----".

(** An [extname] for the examples: the text from the last dot on. *)
Fixpoint lastDotOn (s : jsstring) : jsstring :=
  match s with
  | [] => []
  | c :: rest =>
      if includes [46] rest then lastDotOn rest
      else if c =? 46 then s else []
  end.

(** Three files are queued, [b.txt] among them, before any callback
    comes; then both callbacks come. *)
Definition threeQueued : list Event :=
  [QueueFile (str "a.js"); QueueFile (str "b.txt"); QueueFile (str "c.js")].

Definition threeQueuedBothDone : list Event :=
  threeQueued ++ [GenerateDocDone 0; GenerateDocDone 0].

(** The driver after [threeQueued]: [a.js] is being generated and
    [c.js] waits. *)
Definition driverAfterThreeQueued : Driver :=
  {| docker := {| inDir := str "src";
                  outDir := str "doc";
                  running := true;
                  fileQueue := [str "c.js"] |};
     generating := [str "a.js"];
     generated := [str "a.js"] |}.

(** The driver after [threeQueuedBothDone]: at rest. *)
Definition driverAtRest : Driver :=
  {| docker := {| inDir := str "src";
                  outDir := str "doc";
                  running := false;
                  fileQueue := [] |};
     generating := [];
     generated := [str "a.js"; str "c.js"] |}.

(** A line that can be code: it holds no line feed and the single-line
    comment pattern does not match it. *)
Definition codeLineOf (params : LanguageParams) (l : jsstring) : Prop :=
  ~ In nl l /\ re_match (commentRegex params) l = false.

(** A section whose code is made of whole code lines. *)
Definition codeOfLines (params : LanguageParams) (s : Sec) : Prop :=
  exists ls, code s = textOf ls /\ Forall (codeLineOf params) ls.

(** A line that none of the patterns puts aside. *)
Definition plainLine (params : LanguageParams) (l : jsstring) : Prop :=
  opensMultiLine params l = false
  /\ re_match (commentRegex params) l = false
  /\ re_match (commentsIgnore params) l = false.

(** * Properties *)

(** ** The model on small inputs *)

Example split_empty : split_nl [] = [[]].
Proof. reflexivity. Qed.

Example split_trailing :
  split_nl (str "a" ++ [nl] ++ str "b" ++ [nl]) = [str "a"; str "b"; []].
Proof. reflexivity. Qed.

Example comment_strip :
  re_remove (commentRegex javascript) (str "  // hello") = str "hello".
Proof. reflexivity. Qed.

Example ignore_match :
  re_match (commentsIgnore javascript) (str " //= require x") = true.
Proof. reflexivity. Qed.

Example one_liner_matches_both :
  re_match (multilineStart javascript) (str "/* x */") = true
  /\ re_match (multilineEnd javascript) (str "/* x */") = true.
Proof. split; reflexivity. Qed.

Example parse_empty_file :
  parseSections doxThrows [] (str ".js")
  = Normal [{| docs := []; code := [nl] |}].
Proof. reflexivity. Qed.

Example parse_unknown_language :
  parseSections doxThrows (str "x = 1") (str ".py")
  = Throw (str "Unknown language").
Proof. reflexivity. Qed.

Example parse_one_liner_is_code :
  parseWith doxThrows javascript
    (joinLines [str "a"; str "/* x */"; str "// c"; str "//d"; str "b"])
  = [ {| docs := []; code := joinLines [str "a"; str "/* x */"; []] |};
      {| docs := joinLines [str "c"; str "d"; []];
         code := joinLines [str "b"; []] |} ].
Proof. reflexivity. Qed.

(** A closed block goes through dox; the buffer holds the opening line
    with no line feed after it. *)
Example parse_block_rendered :
  parseWith doxEcho javascript
    (joinLines [str "/**"; str " * hi"; str " */"; str "f();"])
  = [ {| docs := str "/** * hi" ++ [nl] ++ str " */" ++ [nl];
         code := str "f();" ++ [nl] |} ].
Proof. reflexivity. Qed.

(** ** The loop *)

Lemma truthy_nonempty (s : jsstring) : truthy s = true <-> s <> [].
Proof.
  destruct s; simpl; split; intro H; congruence.
Qed.

Lemma split_nl_nonempty (data : jsstring) : split_nl data <> [].
Proof.
  destruct data as [|c rest]; simpl; [discriminate|].
  destruct (c =? nl); [discriminate|].
  destruct (split_nl rest); discriminate.
Qed.

Lemma storeSection_inMultiLineComment (st : State) :
  inMultiLineComment (storeSection st) = inMultiLineComment st.
Proof. unfold storeSection. destruct (truthy _); reflexivity. Qed.

Lemma storeSection_multiLine (st : State) :
  multiLine (storeSection st) = multiLine st.
Proof. unfold storeSection. destruct (truthy _); reflexivity. Qed.

Lemma storeSection_console (st : State) :
  console (storeSection st) = console st.
Proof. unfold storeSection. destruct (truthy _); reflexivity. Qed.

Lemma storeSection_code (st : State) :
  code (section (storeSection st)) = [].
Proof.
  unfold storeSection. destruct (truthy _) eqn:E; simpl; [reflexivity|].
  destruct (code (section st)); [reflexivity | discriminate].
Qed.

(** What [storeSection] pushes: the current section, when it has code and
    is worth keeping. *)
Lemma storeSection_sections (st : State) :
  sections (storeSection st)
  = sections st
    ++ (if truthy (code (section st)) && worthKeeping (section st)
        then [section st] else []).
Proof.
  unfold storeSection.
  destruct (truthy _); simpl; [|now rewrite app_nil_r].
  destruct (worthKeeping _); simpl; [reflexivity | now rewrite app_nil_r].
Qed.

Lemma state_eta (st : State) :
  st = {| sections := sections st;
          section := section st;
          inMultiLineComment := inMultiLineComment st;
          multiLine := multiLine st;
          console := console st |}.
Proof. destruct st; reflexivity. Qed.

Section Properties.

Variable doxRender : jsstring -> Completion jsstring.
Variable p : LanguageParams.

Abbreviation step := (parseLine doxRender p).
Abbreviation run := (runFrom doxRender p).

Lemma run_app (st : State) (xs ys : list jsstring) :
  run st (xs ++ ys) = run (run st xs) ys.
Proof. apply fold_left_app. Qed.

Lemma run_cons (st : State) (l : jsstring) (ls : list jsstring) :
  run st (l :: ls) = run (step st l) ls.
Proof. reflexivity. Qed.

Lemma parseSections_js (data : jsstring) :
  parseSections doxRender data (str ".js")
  = Normal (parseWith doxRender javascript data).
Proof. reflexivity. Qed.

(** C3. For every input text, the empty one too, [parseSections] returns
    a sequence that is not empty: the sections pushed in the loop followed
    by the current section, which is pushed whatever its docs and code
    are. For the empty text that is one section with a single line feed
    as code. *)
Theorem parseSections_never_empty (data : jsstring) :
  let final := runLines doxRender p (split_nl data) in
  parseWith doxRender p data = sections final ++ [section final]
  /\ parseWith doxRender p data <> []
  /\ (exists secs, parseSections doxRender data (str ".js") = Normal secs
                   /\ secs <> [])
  /\ parseSections doxRender [] (str ".js")
     = Normal [{| docs := []; code := [nl] |}].
Proof.
  intro final. split; [reflexivity|]. split; [|split].
  - unfold parseWith, finish. intro H.
    apply app_eq_nil in H. destruct H as [_ H]. discriminate.
  - exists (parseWith doxRender javascript data).
    split; [apply parseSections_js|].
    unfold parseWith, finish. intro H.
    apply app_eq_nil in H. destruct H as [_ H]. discriminate.
  - reflexivity.
Qed.

(** C8. A line read outside a multi-line block that matches both the
    start and the end pattern (a one-liner such as [/* x */]) does not open
    a block: the parser stays outside the multi-line state and the buffer
    is left as it was. *)
Theorem one_liner_does_not_open_block (st : State) (line : jsstring) :
  inMultiLineComment st = false ->
  re_match (multilineStart p) line = true ->
  re_match (multilineEnd p) line = true ->
  opensMultiLine p line = false
  /\ inMultiLineComment (step st line) = false
  /\ multiLine (step st line) = multiLine st.
Proof.
  intros Hout Hs He.
  assert (Ho : opensMultiLine p line = false)
    by (unfold opensMultiLine; rewrite Hs, He; reflexivity).
  split; [exact Ho|].
  unfold parseLine. rewrite Hout, Ho.
  destruct (isSingleComment p line); simpl.
  - rewrite storeSection_inMultiLineComment, storeSection_multiLine. auto.
  - destruct (negb _); simpl; auto.
Qed.

(** C10. A one-liner (start and end pattern both match) read outside a
    block, that is neither a single-line comment nor an ignored line, is
    code: the line and a line feed are appended to the code of the
    current section, and nothing else changes. *)
Theorem one_liner_is_code (st : State) (line : jsstring) :
  inMultiLineComment st = false ->
  re_match (multilineStart p) line = true ->
  re_match (multilineEnd p) line = true ->
  re_match (commentRegex p) line = false ->
  re_match (commentsIgnore p) line = false ->
  step st line
  = {| sections := sections st;
       section := {| docs := docs (section st);
                     code := code (section st) ++ line ++ [nl] |};
       inMultiLineComment := false;
       multiLine := multiLine st;
       console := console st |}.
Proof.
  intros Hout Hs He Hc Hi.
  unfold parseLine, opensMultiLine, isSingleComment.
  rewrite Hout, Hs, He, Hc, Hi. reflexivity.
Qed.

Lemma storeSection_pushed_have_code (st : State) :
  Forall hasCode (sections st) ->
  Forall hasCode (sections (storeSection st)).
Proof.
  intro H. rewrite storeSection_sections.
  apply Forall_app. split; [exact H|].
  destruct (truthy (code (section st))) eqn:E; simpl; [|constructor].
  destruct (worthKeeping _); constructor; [|constructor].
  now apply truthy_nonempty.
Qed.

Lemma step_pushed_have_code (st : State) (line : jsstring) :
  Forall hasCode (sections st) ->
  Forall hasCode (sections (step st line)).
Proof.
  intro H. unfold parseLine.
  destruct (inMultiLineComment st).
  - destruct (re_match _ line); [destruct (doxRender _)|]; exact H.
  - destruct (opensMultiLine p line);
      [now apply storeSection_pushed_have_code|].
    destruct (isSingleComment p line);
      [now apply storeSection_pushed_have_code|].
    destruct (negb _); exact H.
Qed.

Lemma run_pushed_have_code (lines : list jsstring) :
  forall st, Forall hasCode (sections st) ->
             Forall hasCode (sections (run st lines)).
Proof.
  induction lines as [|l ls IH]; intros st H; [exact H|].
  rewrite run_cons. apply IH. now apply step_pushed_have_code.
Qed.

(** C9. In the sequence [parseSections] returns, every section but the
    last has code that is not empty: a section is pushed in the loop only
    when code has gathered in it. *)
Theorem only_last_section_may_lack_code (data : jsstring) :
  Forall (fun s => code s <> []) (removelast (parseWith doxRender p data)).
Proof.
  unfold parseWith, finish. rewrite removelast_last.
  apply (run_pushed_have_code (split_nl data) initState). constructor.
Qed.

(** ** Multi-line blocks *)

(** Inside a block, lines that do not close it only grow the buffer. *)
Lemma run_inside_block (body : list jsstring) :
  forall st,
    inMultiLineComment st = true ->
    noneCloses p body ->
    run st body
    = {| sections := sections st;
         section := section st;
         inMultiLineComment := true;
         multiLine := multiLine st ++ textOf body;
         console := console st |}.
Proof.
  induction body as [|l ls IH]; intros st Hin Hbody.
  - simpl. rewrite app_nil_r. rewrite <- Hin. apply state_eta.
  - inversion Hbody as [|? ? Hl Hls]; subst.
    rewrite run_cons. unfold parseLine at 1. rewrite Hin, Hl.
    rewrite IH by (simpl; auto). simpl.
    f_equal. now rewrite <- !app_assoc.
Qed.

(** The line that opens a block stores the current section and starts
    the buffer with the line itself. *)
Lemma step_opens_block (st : State) (opening : jsstring) :
  inMultiLineComment st = false ->
  opensMultiLine p opening = true ->
  step st opening
  = {| sections := sections (storeSection st);
       section := section (storeSection st);
       inMultiLineComment := true;
       multiLine := opening;
       console := console st |}.
Proof.
  intros Hout Ho. unfold parseLine. rewrite Hout, Ho.
  now rewrite storeSection_console.
Qed.

(** The line that closes a block, when dox throws. *)
Lemma step_closes_block_dox_throws (st : State) (closing e : jsstring) :
  inMultiLineComment st = true ->
  re_match (multilineEnd p) closing = true ->
  doxRender (multiLine st ++ closing ++ [nl]) = Throw e ->
  step st closing
  = {| sections := sections st;
       section := addDocs (multiLine st ++ closing ++ [nl]) (section st);
       inMultiLineComment := false;
       multiLine := [];
       console := console st ++ [str "Dox error: " ++ e] |}.
Proof.
  intros Hin He Hdox. unfold parseLine. rewrite Hin, He, Hdox. reflexivity.
Qed.

(** C7. When dox throws on a multi-line block, the parser does not: the
    buffered text of the block (the opening line, the lines inside each
    with its line feed, the closing line and its line feed) is appended
    as it is to the docs of the current section, the error is written to
    the console, and the lines after the block are parsed from an
    ordinary state outside any block. *)
Theorem dox_failure_keeps_raw_block
    (st : State) (opening closing e : jsstring) (body rest : list jsstring) :
  inMultiLineComment st = false ->
  opensMultiLine p opening = true ->
  noneCloses p body ->
  re_match (multilineEnd p) closing = true ->
  doxRender (opening ++ textOf body ++ closing ++ [nl]) = Throw e ->
  run st (opening :: body ++ closing :: rest)
  = run {| sections := sections (storeSection st);
           section := addDocs (opening ++ textOf body ++ closing ++ [nl])
                              (section (storeSection st));
           inMultiLineComment := false;
           multiLine := [];
           console := console st ++ [str "Dox error: " ++ e] |}
        rest.
Proof.
  intros Hout Ho Hbody Hc Hdox.
  rewrite run_cons, run_app, run_cons.
  rewrite (step_opens_block st opening Hout Ho).
  rewrite (run_inside_block body) by (simpl; auto). simpl multiLine.
  rewrite (step_closes_block_dox_throws _ closing e); simpl;
    try rewrite <- !app_assoc; auto.
Qed.

(** C6. When a multi-line block is opened and no later line closes it,
    what [parseSections] returns is fixed by the lines before the block:
    the sections pushed up to there and the section current after the
    opening line stored the previous one. The opening line and every line
    after it sit in the buffer, which is not returned, and none of them
    is code of any section. *)
Theorem unterminated_block_is_lost
    (data opening : jsstring) (before after : list jsstring) :
  split_nl data = before ++ opening :: after ->
  inMultiLineComment (runLines doxRender p before) = false ->
  opensMultiLine p opening = true ->
  noneCloses p after ->
  let st := storeSection (runLines doxRender p before) in
  let final := runLines doxRender p (split_nl data) in
  parseWith doxRender p data = sections st ++ [section st]
  /\ inMultiLineComment final = true
  /\ multiLine final = opening ++ textOf after.
Proof.
  intros Hsplit Hout Ho Hafter st final.
  assert (Hfinal : final
    = {| sections := sections st;
         section := section st;
         inMultiLineComment := true;
         multiLine := opening ++ textOf after;
         console := console (runLines doxRender p before) |}).
  { unfold final, st, runLines in *. rewrite Hsplit, run_app, run_cons.
    rewrite (step_opens_block _ opening Hout Ho).
    now rewrite (run_inside_block after) by (simpl; auto). }
  unfold parseWith, finish. fold final. rewrite Hfinal. simpl.
  repeat split.
Qed.

(** ** Section boundaries *)

Lemma storeSection_without_code (st : State) :
  code (section st) = [] -> storeSection st = st.
Proof. intro H. unfold storeSection. now rewrite H. Qed.

Lemma step_comment (st : State) (line : jsstring) :
  inMultiLineComment st = false ->
  commentLine p line ->
  step st line
  = {| sections := sections (storeSection st);
       section := addDocs (re_remove (commentRegex p) line ++ [nl])
                          (section (storeSection st));
       inMultiLineComment := false;
       multiLine := multiLine st;
       console := console st |}.
Proof.
  intros Hout [Ho Hc]. unfold parseLine. rewrite Hout, Ho, Hc.
  now rewrite storeSection_inMultiLineComment, storeSection_multiLine,
    storeSection_console, Hout.
Qed.

(** A run of comment lines stores the current section once, at its first
    line, and gathers all its lines in the docs of one section. *)
Lemma run_comments (more : list jsstring) :
  forall (st : State) (first : jsstring),
    inMultiLineComment st = false ->
    Forall (commentLine p) (first :: more) ->
    run st (first :: more)
    = {| sections := sections (storeSection st);
         section := addDocs (strippedText p (first :: more))
                            (section (storeSection st));
         inMultiLineComment := false;
         multiLine := multiLine st;
         console := console st |}.
Proof.
  induction more as [|c cs IH]; intros st first Hout Hall;
    inversion Hall as [|? ? Hfirst Hmore]; subst;
    rewrite run_cons, (step_comment st first Hout Hfirst).
  - simpl. now rewrite app_nil_r.
  - rewrite IH by (simpl; auto).
    rewrite storeSection_without_code by (simpl; apply storeSection_code).
    simpl. unfold addDocs. simpl. now rewrite <- !app_assoc.
Qed.

(** C4. At a section boundary (a line that opens a multi-line block, or a
    single-line comment) the current section is pushed only if its code
    is not empty, and then only if its code or its docs are not blank: a
    section with code whose code and docs are both blank is dropped.
    So a run of single-line comments pushes at most once, at its first
    line: after code it starts one new section, which holds the whole
    run and no code, and not one section per comment line. *)
Theorem boundary_stores_section_once
    (st : State) (line first : jsstring) (more : list jsstring) :
  inMultiLineComment st = false ->
  opensMultiLine p line || isSingleComment p line = true ->
  Forall (commentLine p) (first :: more) ->
  let current := section st in
  let pushed :=
    match code current with
    | [] => []
    | _ :: _ =>
        if isBlank (code current) && isBlank (docs current)
        then [] else [current]
    end in
  sections (step st line) = sections st ++ pushed
  /\ sections (run st (first :: more)) = sections st ++ pushed
  /\ docs (section (run st (first :: more)))
     = match code current with
       | [] => docs current
       | _ :: _ => []
       end ++ strippedText p (first :: more)
  /\ code (section (run st (first :: more))) = [].
Proof.
  intros Hout Hline Hall current pushed.
  assert (Hpushed :
    pushed = if truthy (code (section st)) && worthKeeping (section st)
             then [section st] else []).
  { unfold pushed, current, worthKeeping.
    generalize (isBlank (code (section st))) (isBlank (docs (section st))).
    intros a b. destruct (code (section st)); [reflexivity|].
    now destruct a, b. }
  rewrite Hpushed, <- storeSection_sections.
  rewrite (run_comments more st first Hout Hall). simpl.
  repeat split.
  - unfold parseLine. rewrite Hout.
    destruct (opensMultiLine p line); [reflexivity|].
    simpl in Hline. rewrite Hline. reflexivity.
  - unfold storeSection, current.
    now destruct (code (section st)).
  - rewrite storeSection_code. reflexivity.
Qed.

(** ** Ignored lines *)

(** An ignored line read outside a block, that does not open one, does
    nothing at all. *)
Lemma step_ignored (st : State) (line : jsstring) :
  inMultiLineComment st = false ->
  re_match (commentsIgnore p) line = true ->
  opensMultiLine p line = false ->
  step st line = st.
Proof.
  intros Hout Hi Ho. unfold parseLine, isSingleComment.
  rewrite Hout, Ho, Hi, andb_false_r. reflexivity.
Qed.

(** C2, as amended. A line that matches the ignore pattern, is read
    outside any open multi-line block and does not itself open one, adds
    to the docs and to the code of no section: the sections returned are
    those of the text without that line. *)
Theorem ignored_line_outside_block_adds_nothing
    (data data' line : jsstring) (before after : list jsstring) :
  split_nl data = before ++ line :: after ->
  split_nl data' = before ++ after ->
  inMultiLineComment (runLines doxRender p before) = false ->
  re_match (commentsIgnore p) line = true ->
  opensMultiLine p line = false ->
  parseWith doxRender p data = parseWith doxRender p data'.
Proof.
  intros Hsplit Hsplit' Hout Hi Ho.
  unfold parseWith, runLines in *. rewrite Hsplit, Hsplit'.
  rewrite !run_app, run_cons.
  now rewrite (step_ignored _ line Hout Hi Ho).
Qed.

(** ** Where the code lines go *)

Lemma allCode_app (xs ys : list Sec) :
  allCode (xs ++ ys) = allCode xs ++ allCode ys.
Proof. unfold allCode. now rewrite map_app, concat_app. Qed.

Lemma allCode_one (s : Sec) : allCode [s] = code s.
Proof. unfold allCode. simpl. apply app_nil_r. Qed.

Lemma filter_all (f : Sec -> bool) (secs : list Sec) :
  Forall (fun s => f s = true) secs -> filter f secs = secs.
Proof.
  induction 1 as [|s secs Hs _ IH]; simpl; [reflexivity|].
  now rewrite Hs, IH.
Qed.

(** The test of lines 234 and 242, read as "not both blank". *)
Lemma worthKeeping_notBothBlank (s : Sec) :
  notBothBlank s = worthKeeping s.
Proof.
  unfold notBothBlank, worthKeeping.
  now destruct (isBlank (code s)), (isBlank (docs s)).
Qed.

(** [storeSection] pushes the section formed so far when its code or its
    docs are not blank, and leaves no code in the current section. *)
Lemma storeSection_formed (st : State) :
  let formed := match code (section st) with
                | [] => []
                | _ :: _ => [section st]
                end in
  sections (storeSection st) = sections st ++ filter notBothBlank formed
  /\ allCode formed ++ code (section (storeSection st)) = code (section st).
Proof.
  intro formed. unfold formed, storeSection.
  rewrite (filter_ext notBothBlank worthKeeping worthKeeping_notBothBlank).
  destruct (code (section st)) eqn:E.
  - simpl. rewrite app_nil_r. split; [reflexivity | exact E].
  - cbn [truthy filter sections section code].
    rewrite allCode_one, app_nil_r. split; [|exact E].
    destruct (worthKeeping (section st)); now rewrite ?app_nil_r.
Qed.

(** One line of the loop: the section formed at it is pushed unless its
    code and docs are both blank, and the code of that section and of the
    current section is the code there was, and the line itself when the
    specification counts it as a code line. *)
Lemma step_formed (st : State) (l : jsstring) (ls : list jsstring) :
  sections (step st l)
  = sections st ++ filter notBothBlank (formedAt p st l)
  /\ allCode (formedAt p st l) ++ code (section (step st l))
       ++ textOf (specCodeLines p (inMultiLineComment (step st l)) ls)
     = code (section st)
       ++ textOf (specCodeLines p (inMultiLineComment st) (l :: ls)).
Proof.
  destruct (storeSection_formed st) as [Hs Hc].
  unfold parseLine, formedAt. simpl specCodeLines.
  destruct (inMultiLineComment st) eqn:Hin; simpl negb; simpl andb.
  - simpl. rewrite app_nil_r.
    destruct (re_match (multilineEnd p) l); [destruct (doxRender _)|];
      simpl; auto.
  - destruct (opensMultiLine p l); simpl orb.
    + simpl. split; [exact Hs|]. now rewrite app_assoc, Hc.
    + unfold isSingleComment.
      destruct (re_match (commentRegex p) l), (re_match (commentsIgnore p) l);
        simpl.
      * now rewrite app_nil_r, Hin.
      * split; [exact Hs|].
        now rewrite storeSection_inMultiLineComment, Hin, app_assoc, Hc.
      * now rewrite app_nil_r, Hin.
      * rewrite app_nil_r. split; [reflexivity|]. now rewrite <- !app_assoc.
Qed.

Lemma run_formed (lines : list jsstring) :
  forall st,
    sections (run st lines)
    = sections st ++ filter notBothBlank (formedFrom doxRender p st lines)
    /\ allCode (formedFrom doxRender p st lines ++ [section (run st lines)])
       = code (section st)
         ++ textOf (specCodeLines p (inMultiLineComment st) lines).
Proof.
  induction lines as [|l ls IH]; intro st.
  - simpl. now rewrite allCode_one, !app_nil_r.
  - rewrite run_cons.
    destruct (IH (step st l)) as [Hs Hc].
    destruct (step_formed st l ls) as [Hs0 Hc0].
    change (formedFrom doxRender p st (l :: ls))
      with (formedAt p st l ++ formedFrom doxRender p (step st l) ls).
    split.
    + now rewrite Hs, Hs0, filter_app, app_assoc.
    + now rewrite <- app_assoc, allCode_app, Hc, <- Hc0.
Qed.

(** C1, as amended. Take the sections the parser forms: at each section
    boundary the current section, when it has code, and at the end the
    last current section. Their code, end to end, is exactly the code
    lines of the text in their order, each with its line feed (the lines
    not consumed as comments, less the ignored ones). What
    [parseSections] returns is these sections without those, other than
    the last, whose code and docs are both blank. So its code is the code
    lines of the text except for the blank code of the sections
    discarded at a boundary, and it is all of them when no formed section
    is blank in both code and docs. *)
Theorem code_round_trip_up_to_blank_sections (data : jsstring) :
  let lines := split_nl data in
  let formed := formedFrom doxRender p initState lines in
  let last := section (runLines doxRender p lines) in
  parseWith doxRender p data
  = filter (fun s => negb (isBlank (code s) && isBlank (docs s))) formed
    ++ [last]
  /\ allCode (formed ++ [last]) = textOf (specCodeLines p false lines)
  /\ (Forall (fun s => isBlank (code s) && isBlank (docs s) = false) formed ->
      allCode (parseWith doxRender p data)
      = textOf (specCodeLines p false lines)).
Proof.
  intros lines formed last.
  destruct (run_formed lines initState) as [Hs Hc].
  fold formed in Hs, Hc. simpl in Hs, Hc.
  assert (Hparse : parseWith doxRender p data
                   = filter notBothBlank formed ++ [last]).
  { unfold parseWith, finish, runLines. fold lines. now rewrite Hs. }
  split; [exact Hparse|]. split; [exact Hc|].
  intro Hall. rewrite Hparse, filter_all; [exact Hc|].
  eapply Forall_impl; [|exact Hall].
  intros s Hs'. unfold notBothBlank. now rewrite Hs'.
Qed.

End Properties.

(** * The parser on concrete texts *)

(** C5, as amended. For the text ["// hello\nvar x = 1;\n"] and the
    JavaScript rules, [parseSections] returns exactly one section; its
    docs are ["hello\n"] and its code is ["var x = 1;\n\n"]: the empty
    piece after the last line feed is a line too, and it is code. *)
Theorem hello_example (doxRender : jsstring -> Completion jsstring) :
  parseSections doxRender helloText (str ".js")
  = Normal [ {| docs := str "hello" ++ [nl];
                code := str "var x = 1;" ++ [nl; nl] |} ].
Proof. reflexivity. Qed.

(** C5 as stated fails: the code of the section is not
    ["var x = 1;\n"]. *)
Lemma hello_example_code_is_not_one_line :
  parseSections doxThrows helloText (str ".js")
  <> Normal [ {| docs := str "hello" ++ [nl];
                 code := str "var x = 1;" ++ [nl] |} ].
Proof. vm_compute. discriminate. Qed.

(** C1 as stated fails: the code lines of ["\n// a\nx"] are the empty
    line and [x], but the section that held the empty line was dropped at
    the comment, and the code returned is ["x\n"] only. *)
Lemma blank_code_before_comment_is_dropped :
  specCodeLines javascript false (split_nl blankFirstText) = [[]; str "x"]
  /\ parseWith doxThrows javascript blankFirstText
     = [ {| docs := str "a" ++ [nl]; code := str "x" ++ [nl] |} ]
  /\ allCode (parseWith doxThrows javascript blankFirstText)
     <> textOf (specCodeLines javascript false (split_nl blankFirstText)).
Proof.
  split; [reflexivity|]. split; [reflexivity|].
  vm_compute. discriminate.
Qed.

(** The ignored line closes the block, whatever dox does with it: with
    the line, [var x = 1;] is code; without it, the block stays open and
    nothing is returned but an empty section. *)
Lemma ignored_line_in_block_changes_code
    (doxRender : jsstring -> Completion jsstring) :
  allCode (parseWith doxRender javascript ignoredInBlockText)
  = str "var x = 1;" ++ [nl]
  /\ parseWith doxRender javascript withoutIgnoredText = [emptySec].
Proof.
  split; [|reflexivity].
  vm_compute. destruct (doxRender _); reflexivity.
Qed.

(** C2 as stated fails inside an open multi-line block. The line
    [//= x] matches the ignore pattern, yet it is buffered with the block
    and, when dox throws, lands in the docs as it is; and the ignored
    line [//= */] closes the block it is read in, so that the line after
    it is code, where without it the block stays open. *)
Lemma ignored_line_in_block_is_kept :
  re_match (commentsIgnore javascript) (str "//= x") = true
  /\ parseWith doxThrows javascript (joinLines [str "/*"; str "//= x"; str "*/"])
     = [ {| docs := str "/*//= x" ++ [nl] ++ str "*/" ++ [nl]; code := [] |} ]
  /\ parseWith doxThrows javascript (joinLines [str "/*"; str "*/"])
     = [ {| docs := str "/**/" ++ [nl]; code := [] |} ]
  /\ re_match (commentsIgnore javascript) (str "//= */") = true
  /\ parseWith doxThrows javascript ignoredInBlockText
     <> parseWith doxThrows javascript withoutIgnoredText.
Proof.
  repeat (split; [reflexivity|]).
  vm_compute. discriminate.
Qed.

(** ** The theorems at concrete inputs *)

(** C8 at the line [/* x */], read first in a file. *)
Lemma one_liner_does_not_open_block_witness :
  re_match (multilineStart javascript) (str "/* x */") = true
  /\ re_match (multilineEnd javascript) (str "/* x */") = true
  /\ (opensMultiLine javascript (str "/* x */") = false
      /\ inMultiLineComment
           (parseLine doxThrows javascript initState (str "/* x */")) = false
      /\ multiLine (parseLine doxThrows javascript initState (str "/* x */"))
         = multiLine initState).
Proof.
  split; [reflexivity|]. split; [reflexivity|].
  apply (one_liner_does_not_open_block doxThrows javascript initState
           (str "/* x */")); reflexivity.
Defined.

(** C10 at the line [/* x */], read after the code [var a;]. *)
Lemma one_liner_is_code_witness :
  parseLine doxThrows javascript afterCode (str "/* x */")
  = {| sections := [];
       section := {| docs := [];
                     code := code (section afterCode)
                             ++ str "/* x */" ++ [nl] |};
       inMultiLineComment := false;
       multiLine := [];
       console := [] |}.
Proof.
  apply (one_liner_is_code doxThrows javascript afterCode (str "/* x */"));
    reflexivity.
Defined.

(** C7 at a block of three lines on which dox throws, read after the
    code [var a;] and followed by the code [f();]. *)
Lemma dox_failure_keeps_raw_block_witness :
  finish
    (runFrom doxThrows javascript afterCode
       (str "/**" :: [str " * @param"] ++ str " */" :: [str "f();"]))
  = [ {| docs := []; code := str "var a;" ++ [nl] |};
      {| docs := str "/** * @param" ++ [nl] ++ str " */" ++ [nl];
         code := str "f();" ++ [nl] |} ].
Proof.
  rewrite (dox_failure_keeps_raw_block doxThrows javascript afterCode
             (str "/**") (str " */") (str "TypeError")
             [str " * @param"] [str "f();"]);
    try reflexivity.
  repeat constructor.
Defined.

(** C6 at the text ["/* never closes\nvar x = 1;\n"]. *)
Lemma unterminated_block_is_lost_witness :
  let data := joinLines [str "/* never closes"; str "var x = 1;"; []] in
  parseWith doxThrows javascript data = [emptySec]
  /\ inMultiLineComment (runLines doxThrows javascript (split_nl data)) = true
  /\ multiLine (runLines doxThrows javascript (split_nl data))
     = str "/* never closes" ++ textOf [str "var x = 1;"; []].
Proof.
  apply (unterminated_block_is_lost doxThrows javascript
           (joinLines [str "/* never closes"; str "var x = 1;"; []])
           (str "/* never closes") [] [str "var x = 1;"; []]);
    try reflexivity.
  repeat constructor.
Defined.

(** C4 at the comment run [// one], [// two], read after the code
    [var a;], which is pushed, and read after an empty line, a section
    of blank code and no docs, which is dropped. *)
Lemma boundary_stores_section_once_witness :
  (sections (parseLine doxThrows javascript afterCode (str "// one"))
   = [ {| docs := []; code := str "var a;" ++ [nl] |} ]
   /\ sections (runFrom doxThrows javascript afterCode
                  [str "// one"; str "// two"])
      = [ {| docs := []; code := str "var a;" ++ [nl] |} ]
   /\ docs (section (runFrom doxThrows javascript afterCode
                       [str "// one"; str "// two"]))
      = str "one" ++ [nl] ++ str "two" ++ [nl]
   /\ code (section (runFrom doxThrows javascript afterCode
                       [str "// one"; str "// two"])) = [])
  /\ (code (section afterBlankLine) = [nl]
      /\ sections (parseLine doxThrows javascript afterBlankLine
                     (str "// one")) = []
      /\ sections (runFrom doxThrows javascript afterBlankLine
                     [str "// one"; str "// two"]) = []
      /\ docs (section (runFrom doxThrows javascript afterBlankLine
                          [str "// one"; str "// two"]))
         = str "one" ++ [nl] ++ str "two" ++ [nl]
      /\ code (section (runFrom doxThrows javascript afterBlankLine
                          [str "// one"; str "// two"])) = []).
Proof.
  split; [|split; [reflexivity|]].
  - apply (boundary_stores_section_once doxThrows javascript afterCode
             (str "// one") (str "// one") [str "// two"]);
      try reflexivity.
    repeat constructor.
  - apply (boundary_stores_section_once doxThrows javascript afterBlankLine
             (str "// one") (str "// one") [str "// two"]);
      try reflexivity.
    repeat constructor.
Defined.

(** C2 at the text ["a\n//= skip\nb"], against ["a\nb"]. *)
Lemma ignored_line_outside_block_adds_nothing_witness :
  re_match (commentsIgnore javascript) (str "//= skip") = true
  /\ parseWith doxThrows javascript
       (joinLines [str "a"; str "//= skip"; str "b"])
     = parseWith doxThrows javascript (joinLines [str "a"; str "b"]).
Proof.
  split; [reflexivity|].
  apply (ignored_line_outside_block_adds_nothing doxThrows javascript
           (joinLines [str "a"; str "//= skip"; str "b"])
           (joinLines [str "a"; str "b"])
           (str "//= skip") [str "a"] [str "b"]);
    reflexivity.
Defined.

(** * The Docker object *)

(** ** The constructor and [outFile] *)

Lemma stripTrailingSlash_slash (dir : jsstring) :
  stripTrailingSlash (dir ++ [slash]) = dir.
Proof.
  induction dir as [|c d IH]; [reflexivity|].
  simpl. destruct (d ++ [slash]) eqn:E.
  - now destruct d.
  - now rewrite IH.
Qed.

Lemma stripTrailingSlash_other (dir : jsstring) (c : char) :
  c <> slash -> stripTrailingSlash (dir ++ [c]) = dir ++ [c].
Proof.
  intro Hc. induction dir as [|x d IH].
  - simpl. now apply N.eqb_neq in Hc; rewrite Hc.
  - simpl. destruct (d ++ [c]) eqn:E.
    + now destruct d.
    + now rewrite IH.
Qed.

(** X1. The constructor takes one slash off the end of the input
    directory and nothing else: [dir/] is kept as [dir], and a name that
    ends in another character, or is empty, is kept as it is. *)
Theorem newDocker_inDir (dir out : jsstring) :
  inDir (newDocker (dir ++ [slash]) out) = dir
  /\ (forall c, c <> slash -> inDir (newDocker (dir ++ [c]) out) = dir ++ [c])
  /\ inDir (newDocker [] out) = []
  /\ outDir (newDocker dir out) = out.
Proof.
  split; [apply stripTrailingSlash_slash|].
  split; [intros c Hc; now apply stripTrailingSlash_other|].
  split; reflexivity.
Qed.

Lemma startsWith_app (pat rest : jsstring) :
  startsWith pat (pat ++ rest) = true.
Proof.
  induction pat as [|c pat IH]; [reflexivity|].
  simpl. now rewrite N.eqb_refl, IH.
Qed.

Lemma skipn_length_app (pat rest : jsstring) :
  skipn (List.length pat) (pat ++ rest) = rest.
Proof. induction pat as [|c pat IH]; [reflexivity | exact IH]. Qed.

Lemma findFirst_eq (pat s : jsstring) :
  findFirst pat s
  = if startsWith pat s then Some ([], skipn (List.length pat) s)
    else match s with
         | [] => None
         | c :: s' =>
             match findFirst pat s' with
             | Some (before, after) => Some (c :: before, after)
             | None => None
             end
         end.
Proof. destruct s; reflexivity. Qed.

Lemma findFirst_prefix (pat rest : jsstring) :
  findFirst pat (pat ++ rest) = Some ([], rest).
Proof.
  now rewrite findFirst_eq, startsWith_app, skipn_length_app.
Qed.

Lemma findFirst_absent (pat s : jsstring) :
  includes pat s = false -> findFirst pat s = None.
Proof.
  induction s as [|c s IH]; intro H; rewrite findFirst_eq.
  - simpl in H. now rewrite H.
  - simpl in H. apply orb_false_elim in H. destruct H as [H1 H2].
    now rewrite H1, (IH H2).
Qed.

Lemma getSubstitution_app (matched before after pre repl : jsstring) :
  ~ In dollar pre ->
  getSubstitution matched before after (pre ++ repl)
  = pre ++ getSubstitution matched before after repl.
Proof.
  induction pre as [|c pre IH]; intro H; [reflexivity|].
  simpl. destruct (c =? dollar) eqn:E.
  - apply N.eqb_eq in E. exfalso. apply H. now left.
  - f_equal. apply IH. intro Hin. apply H. now right.
Qed.

Lemma getSubstitution_plain (matched before after repl : jsstring) :
  ~ In dollar repl -> getSubstitution matched before after repl = repl.
Proof.
  intro H. rewrite <- (app_nil_r repl) at 1.
  rewrite getSubstitution_app by exact H. simpl. apply app_nil_r.
Qed.

(** X2. For a file name that begins with the input directory, as
    [generateDoc] builds it, and an output directory without a dollar
    sign, [outFile] puts the output directory in the place of the input
    directory and [.html] at the end. *)
Theorem outFile_under_inDir (d : Docker) (rest : jsstring) :
  ~ In dollar (outDir d) ->
  outFile d (inDir d ++ rest) = outDir d ++ rest ++ str ".html".
Proof.
  intro H. unfold outFile, replaceString.
  rewrite findFirst_prefix, getSubstitution_plain by exact H.
  simpl. now rewrite <- app_assoc.
Qed.

(** X3. When the input directory occurs nowhere in the file name,
    [outFile] changes no directory: the page is named after the file
    itself, with [.html] added. *)
Theorem outFile_outside_inDir (d : Docker) (filename : jsstring) :
  includes (inDir d) filename = false ->
  outFile d filename = filename ++ str ".html".
Proof.
  intro H. unfold outFile, replaceString.
  now rewrite (findFirst_absent _ _ H).
Qed.

(** X4. The output directory is read as a replacement pattern: where it
    holds [$&], the name of the input directory comes out in the path of
    the page. *)
Theorem outFile_dollar_ampersand (d : Docker) (pre post rest : jsstring) :
  outDir d = pre ++ str "$&" ++ post ->
  ~ In dollar pre ->
  ~ In dollar post ->
  outFile d (inDir d ++ rest)
  = pre ++ inDir d ++ post ++ rest ++ str ".html".
Proof.
  intros Hout Hpre Hpost. unfold outFile, replaceString.
  rewrite findFirst_prefix, Hout, getSubstitution_app by exact Hpre.
  simpl. rewrite getSubstitution_plain by exact Hpost.
  simpl. now rewrite <- !app_assoc.
Qed.

Example outFile_example :
  outFile (newDocker (str "src/") (str "doc")) (str "src/lib/a.js")
  = str "doc/lib/a.js.html".
Proof. reflexivity. Qed.

Example outFile_dollars :
  outFile (newDocker (str "src") (str "a$$b$1")) (str "src/a.js")
  = str "a$b$1/a.js.html".
Proof. reflexivity. Qed.

(** ** The file queue *)

(** One file at a time: either the flag is up and exactly one call of
    [generateDoc] is under way, or the flag is down, no call is under way
    and no file waits. *)
Definition oneAtATime (w : Driver) : Prop :=
  (running (docker w) = true /\ exists filename, generating w = [filename])
  \/ (running (docker w) = false /\ generating w = []
      /\ fileQueue (docker w) = []).

Section QueueProperties.

Variable extname : jsstring -> jsstring.

Abbreviation handles := (canHandleFile extname).

Lemma nextFile_oneAtATime (w : Driver) :
  generating w = [] -> oneAtATime (nextFile w).
Proof.
  intro H. unfold nextFile, oneAtATime.
  destruct (fileQueue (docker w)) as [|f rest]; simpl.
  - right. auto.
  - left. split; [reflexivity|]. exists f. now rewrite H.
Qed.

Lemma queueFile_oneAtATime (w : Driver) (filename : jsstring) :
  oneAtATime w -> oneAtATime (queueFile extname w filename).
Proof.
  intro H. unfold queueFile.
  destruct (negb (handles filename)); [exact H|].
  destruct H as [[Hrun Hgen] | (Hrun & Hgen & _)]; simpl; rewrite Hrun; simpl.
  - left. simpl. auto.
  - now apply nextFile_oneAtATime.
Qed.

Lemma handle_oneAtATime (w w' : Driver) (e : Event) :
  oneAtATime w -> handle extname w e = Some w' -> oneAtATime w'.
Proof.
  intros H He. destruct e as [filename | i]; simpl in He.
  - injection He as <-. now apply queueFile_oneAtATime.
  - destruct (dropNth i (generating w)) as [others|] eqn:E; [|discriminate].
    injection He as <-. apply nextFile_oneAtATime. simpl.
    destruct H as [[_ [f Hgen]] | (_ & Hgen & _)]; rewrite Hgen in E.
    + destruct i as [|[|j]]; simpl in E; congruence.
    + destruct i; discriminate.
Qed.

Lemma handleAll_oneAtATime (events : list Event) :
  forall w w', oneAtATime w -> handleAll extname w events = Some w' ->
               oneAtATime w'.
Proof.
  induction events as [|e later IH]; intros w w' H Hall; simpl in Hall.
  - now injection Hall as <-.
  - destruct (handle extname w e) as [w1|] eqn:E; [|discriminate].
    exact (IH w1 w' (handle_oneAtATime w w1 e H E) Hall).
Qed.

(** X5. Whatever files are queued and whenever the callbacks come, a
    Docker object generates one file at a time: at most one call of
    [generateDoc] is under way, the [running] flag is up exactly then,
    and no file waits in the queue while the flag is down. *)
Theorem generates_one_file_at_a_time
    (inDirArg outDirArg : jsstring) (events : list Event) (w : Driver) :
  handleAll extname (newDriver inDirArg outDirArg) events = Some w ->
  (List.length (generating w) <= 1)%nat
  /\ (running (docker w) = true <-> generating w <> [])
  /\ (running (docker w) = false -> fileQueue (docker w) = []).
Proof.
  intro H.
  assert (Hinv : oneAtATime w).
  { apply (handleAll_oneAtATime events (newDriver inDirArg outDirArg) w);
      [|exact H].
    right. repeat split. }
  destruct Hinv as [[Hrun [f Hgen]] | (Hrun & Hgen & Hq)];
    rewrite Hrun, Hgen; simpl; repeat split; auto; try congruence; try lia.
Qed.

(** What was generated and what waits, after [nextFile]. *)
Lemma nextFile_order (w : Driver) :
  generated (nextFile w) ++ fileQueue (docker (nextFile w))
  = generated w ++ fileQueue (docker w).
Proof.
  unfold nextFile. destruct (fileQueue (docker w)); simpl; [reflexivity|].
  now rewrite <- app_assoc.
Qed.

Lemma handle_order (w w' : Driver) (e : Event) :
  handle extname w e = Some w' ->
  generated w' ++ fileQueue (docker w')
  = (generated w ++ fileQueue (docker w))
    ++ filter handles (queuedFiles [e]).
Proof.
  destruct e as [filename | i]; simpl; intro He.
  - injection He as <-. unfold queueFile.
    destruct (handles filename); simpl; [|now rewrite app_nil_r].
    destruct (negb (running (docker w)));
      [rewrite nextFile_order|]; simpl; now rewrite app_assoc.
  - destruct (dropNth i (generating w)); [|discriminate].
    injection He as <-. rewrite nextFile_order. simpl.
    now rewrite app_nil_r.
Qed.

Lemma handleAll_order (events : list Event) :
  forall w w', handleAll extname w events = Some w' ->
    generated w' ++ fileQueue (docker w')
    = (generated w ++ fileQueue (docker w))
      ++ filter handles (queuedFiles events).
Proof.
  induction events as [|e later IH]; intros w w' Hall; simpl in Hall.
  - injection Hall as <-. simpl. now rewrite app_nil_r.
  - destruct (handle extname w e) as [w1|] eqn:E; [|discriminate].
    rewrite (IH w1 w' Hall), (handle_order w w1 e E).
    rewrite <- app_assoc, <- filter_app. f_equal. f_equal.
    now destruct e.
Qed.

(** X6. First in, first out, and nothing lost or done twice: the files
    [generateDoc] was called for, followed by the files still waiting,
    are the files handed to [queueFile] that [canHandleFile] accepts, in
    the order they came. *)
Theorem queue_is_first_in_first_out
    (inDirArg outDirArg : jsstring) (events : list Event) (w : Driver) :
  handleAll extname (newDriver inDirArg outDirArg) events = Some w ->
  generated w ++ fileQueue (docker w)
  = filter handles (queuedFiles events).
Proof.
  intro H.
  now rewrite (handleAll_order events (newDriver inDirArg outDirArg) w H).
Qed.

(** X7. Once no call of [generateDoc] is under way, every file that was
    queued and can be handled has been generated, once each and in the
    order of queueing, and the Docker object is at rest. *)
Theorem idle_driver_has_generated_everything
    (inDirArg outDirArg : jsstring) (events : list Event) (w : Driver) :
  handleAll extname (newDriver inDirArg outDirArg) events = Some w ->
  generating w = [] ->
  generated w = filter handles (queuedFiles events)
  /\ fileQueue (docker w) = []
  /\ running (docker w) = false.
Proof.
  intros H Hidle.
  assert (Hinv : oneAtATime w).
  { apply (handleAll_oneAtATime events (newDriver inDirArg outDirArg) w);
      [|exact H].
    right. repeat split. }
  pose proof (handleAll_order events (newDriver inDirArg outDirArg) w H)
    as Hord. simpl in Hord.
  destruct Hinv as [[_ [f Hgen]] | (Hrun & _ & Hq)]; [congruence|].
  rewrite Hq, app_nil_r in Hord. auto.
Qed.

(** X8. The filter of the queue and the table of languages agree: a file
    is accepted by [canHandleFile] exactly when [languageParams] has
    parameters for its extension, and otherwise [languageParams]
    throws. *)
Theorem canHandleFile_iff_languageParams (filename : jsstring) :
  (handles filename = true
   <-> exists params, languageParams (extname filename) = Normal params)
  /\ (handles filename = false
      <-> languageParams (extname filename) = Throw (str "Unknown language")).
Proof.
  unfold canHandleFile, languageParams.
  destruct (jsstring_eqb (extname filename) (str ".js")); split; split;
    intro H; try reflexivity; try discriminate.
  - now exists javascript.
  - destruct H as [params H]. discriminate.
Qed.

End QueueProperties.

(** * More on the parser *)

Section ParserProperties.

Variable doxRender : jsstring -> Completion jsstring.
Variable p : LanguageParams.

Abbreviation step := (parseLine doxRender p).
Abbreviation run := (runFrom doxRender p).

(** X9. When dox returns for a multi-line block, the text it returns is
    appended to the docs of the section that the opening line left
    current, in place of the block; nothing is written to the console,
    and the lines after the block are parsed from an ordinary state
    outside any block. *)
Theorem dox_success_puts_rendered_text
    (st : State) (opening closing rendered : jsstring)
    (body rest : list jsstring) :
  inMultiLineComment st = false ->
  opensMultiLine p opening = true ->
  noneCloses p body ->
  re_match (multilineEnd p) closing = true ->
  doxRender (opening ++ textOf body ++ closing ++ [nl]) = Normal rendered ->
  run st (opening :: body ++ closing :: rest)
  = run {| sections := sections (storeSection st);
           section := addDocs rendered (section (storeSection st));
           inMultiLineComment := false;
           multiLine := [];
           console := console st |}
        rest.
Proof.
  intros Hout Ho Hbody Hc Hdox.
  rewrite (run_cons doxRender p), (run_app doxRender p),
    (run_cons doxRender p).
  rewrite (step_opens_block doxRender p st opening Hout Ho).
  rewrite (run_inside_block doxRender p body) by (simpl; auto).
  unfold parseLine at 1. simpl.
  rewrite Hc, <- !app_assoc, Hdox. reflexivity.
Qed.

Lemma storeSection_pushed_worth_keeping (st : State) :
  Forall (fun s => worthKeeping s = true) (sections st) ->
  Forall (fun s => worthKeeping s = true) (sections (storeSection st)).
Proof.
  intro H. rewrite storeSection_sections.
  apply Forall_app. split; [exact H|].
  destruct (truthy _); simpl; [|constructor].
  destruct (worthKeeping (section st)) eqn:E; constructor;
    [exact E | constructor].
Qed.

Lemma step_pushed_worth_keeping (st : State) (line : jsstring) :
  Forall (fun s => worthKeeping s = true) (sections st) ->
  Forall (fun s => worthKeeping s = true) (sections (step st line)).
Proof.
  intro H. unfold parseLine.
  destruct (inMultiLineComment st).
  - destruct (re_match _ line); [destruct (doxRender _)|]; exact H.
  - destruct (opensMultiLine p line);
      [now apply storeSection_pushed_worth_keeping|].
    destruct (isSingleComment p line);
      [now apply storeSection_pushed_worth_keeping|].
    destruct (negb _); exact H.
Qed.

Lemma run_pushed_worth_keeping (lines : list jsstring) :
  forall st, Forall (fun s => worthKeeping s = true) (sections st) ->
             Forall (fun s => worthKeeping s = true)
                    (sections (run st lines)).
Proof.
  induction lines as [|l ls IH]; intros st H; [exact H|].
  rewrite (run_cons doxRender p). apply IH.
  now apply step_pushed_worth_keeping.
Qed.

(** X10. In the sequence [parseSections] returns, no section but the
    last has code and docs that are both blank: each of them has a
    character that is not whitespace, in its code or in its docs. *)
Theorem only_last_section_may_be_blank (data : jsstring) :
  Forall (fun s => isBlank (code s) = false \/ isBlank (docs s) = false)
         (removelast (parseWith doxRender p data)).
Proof.
  unfold parseWith, finish. rewrite removelast_last.
  eapply Forall_impl;
    [|apply (run_pushed_worth_keeping (split_nl data) initState);
      constructor].
  intros s Hs. unfold worthKeeping in Hs.
  apply orb_true_iff in Hs.
  destruct Hs as [Hs|Hs]; apply negb_true_iff in Hs; auto.
Qed.

Lemma step_sections_length (st : State) (line : jsstring) :
  (List.length (sections (step st line)) <= S (List.length (sections st)))%nat.
Proof.
  assert (Hstore :
    (List.length (sections (storeSection st))
     <= S (List.length (sections st)))%nat).
  { rewrite storeSection_sections, length_app.
    destruct (_ && _); simpl; lia. }
  unfold parseLine.
  destruct (inMultiLineComment st).
  - destruct (re_match _ line); [destruct (doxRender _)|]; simpl; lia.
  - destruct (opensMultiLine p line); [exact Hstore|].
    destruct (isSingleComment p line); [exact Hstore|].
    destruct (negb _); simpl; lia.
Qed.

Lemma run_sections_length (lines : list jsstring) :
  forall st,
    (List.length (sections (run st lines))
     <= List.length (sections st) + List.length lines)%nat.
Proof.
  induction lines as [|l ls IH]; intro st; [simpl; lia|].
  rewrite (run_cons doxRender p).
  specialize (IH (step st l)).
  pose proof (step_sections_length st l).
  change (List.length (l :: ls)) with (S (List.length ls)). lia.
Qed.

(** The first line of a text pushes nothing: there is no code yet. *)
Lemma first_line_pushes_nothing (line : jsstring) :
  sections (step initState line) = [].
Proof.
  unfold parseLine. simpl.
  destruct (opensMultiLine p line); [reflexivity|].
  destruct (isSingleComment p line); [reflexivity|].
  destruct (negb _); reflexivity.
Qed.

(** X11. [parseSections] never returns more sections than the text has
    lines (a text of [n] line feeds has [n + 1] lines). *)
Theorem no_more_sections_than_lines (data : jsstring) :
  (List.length (parseWith doxRender p data)
   <= List.length (split_nl data))%nat.
Proof.
  unfold parseWith, finish, runLines.
  destruct (split_nl data) as [|l ls] eqn:E;
    [now apply split_nl_nonempty in E|].
  rewrite (run_cons doxRender p), length_app. simpl.
  pose proof (run_sections_length ls (step initState l)) as H.
  rewrite first_line_pushes_nothing in H. simpl in H. lia.
Qed.

(** The lines of a text, each with its line feed, are the text and one
    more line feed. *)
Lemma textOf_split_nl (data : jsstring) :
  textOf (split_nl data) = data ++ [nl].
Proof.
  induction data as [|c rest IH]; [reflexivity|].
  simpl. destruct (c =? nl) eqn:E.
  - apply N.eqb_eq in E. subst c. simpl. now rewrite <- IH.
  - destruct (split_nl rest) as [|piece pieces].
    + destruct rest; discriminate.
    + simpl in *. now rewrite <- IH.
Qed.

Lemma textOf_app (xs ys : list jsstring) :
  textOf (xs ++ ys) = textOf xs ++ textOf ys.
Proof. unfold textOf. apply flat_map_app. Qed.

Lemma run_plain_lines (lines : list jsstring) :
  forall st,
    inMultiLineComment st = false ->
    Forall (plainLine p) lines ->
    run st lines
    = {| sections := sections st;
         section := addCode (textOf lines) (section st);
         inMultiLineComment := false;
         multiLine := multiLine st;
         console := console st |}.
Proof.
  induction lines as [|l ls IH]; intros st Hout Hall.
  - simpl. unfold addCode. rewrite app_nil_r, <- Hout.
    destruct st as [? [? ?] ? ? ?]; reflexivity.
  - inversion Hall as [|? ? (Ho & Hc & Hi) Hls]; subst.
    rewrite (run_cons doxRender p).
    assert (Hstep : step st l
      = {| sections := sections st;
           section := addCode (l ++ [nl]) (section st);
           inMultiLineComment := false;
           multiLine := multiLine st;
           console := console st |}).
    { unfold parseLine, isSingleComment. now rewrite Hout, Ho, Hc, Hi. }
    rewrite Hstep, IH by (simpl; auto). simpl.
    unfold addCode. simpl. now rewrite <- !app_assoc.
Qed.

(** X12. A text in which no line opens a multi-line comment, is a
    single-line comment or is ignored comes back whole: one section,
    without docs, whose code is the text and one more line feed. *)
Theorem text_without_comments_is_one_section (data : jsstring) :
  Forall (plainLine p) (split_nl data) ->
  parseWith doxRender p data = [ {| docs := []; code := data ++ [nl] |} ].
Proof.
  intro H. unfold parseWith, runLines.
  rewrite (run_plain_lines (split_nl data) initState eq_refl H).
  unfold finish. simpl. now rewrite textOf_split_nl.
Qed.

(** ** The code of a section is made of whole code lines *)

Lemma split_nl_lines (data : jsstring) :
  Forall (fun l => ~ In nl l) (split_nl data).
Proof.
  induction data as [|c rest IH]; simpl.
  - constructor; [intros []|constructor].
  - destruct (c =? nl) eqn:E.
    + constructor; [intros []|exact IH].
    + apply N.eqb_neq in E.
      destruct (split_nl rest) as [|piece pieces].
      * constructor; [|constructor]. intros [H|[]]. congruence.
      * inversion IH as [|? ? Hpiece Hpieces]; subst.
        constructor; [|exact Hpieces].
        intros [H|H]; [congruence | now apply Hpiece].
Qed.

Lemma storeSection_codeOfLines (st : State) :
  Forall (codeOfLines p) (sections st) ->
  codeOfLines p (section st) ->
  Forall (codeOfLines p) (sections (storeSection st))
  /\ codeOfLines p (section (storeSection st)).
Proof.
  intros Hs Hc. unfold storeSection.
  destruct (truthy _); [|auto]. simpl. split.
  - destruct (worthKeeping _); [|exact Hs].
    apply Forall_app. split; [exact Hs|]. constructor; [exact Hc|constructor].
  - exists []. split; [reflexivity|constructor].
Qed.

Lemma step_codeOfLines (st : State) (line : jsstring) :
  ~ In nl line ->
  Forall (codeOfLines p) (sections st) ->
  codeOfLines p (section st) ->
  Forall (codeOfLines p) (sections (step st line))
  /\ codeOfLines p (section (step st line)).
Proof.
  intros Hline Hs Hc.
  destruct (storeSection_codeOfLines st Hs Hc) as [Hs' Hc'].
  unfold parseLine.
  destruct (inMultiLineComment st).
  - destruct (re_match _ line); [destruct (doxRender _)|]; simpl; auto.
  - destruct (opensMultiLine p line); [simpl; auto|].
    unfold isSingleComment.
    destruct (re_match (commentRegex p) line) eqn:Ecomment;
      destruct (re_match (commentsIgnore p) line); simpl; auto.
    split; [exact Hs|].
    destruct Hc as (ls & Hcode & Hls).
    exists (ls ++ [line]). split.
    + rewrite textOf_app, <- Hcode. simpl. now rewrite app_nil_r.
    + apply Forall_app. split; [exact Hls|].
      constructor; [now split | constructor].
Qed.

Lemma run_codeOfLines (lines : list jsstring) :
  forall st,
    Forall (fun l => ~ In nl l) lines ->
    Forall (codeOfLines p) (sections st) ->
    codeOfLines p (section st) ->
    Forall (codeOfLines p) (finish (run st lines)).
Proof.
  induction lines as [|l ls IH]; intros st Hlines Hs Hc.
  - apply Forall_app. split; [exact Hs|]. constructor; [exact Hc|constructor].
  - inversion Hlines as [|? ? Hl Hls]; subst.
    destruct (step_codeOfLines st l Hl Hs Hc) as [Hs' Hc'].
    rewrite (run_cons doxRender p). now apply IH.
Qed.

End ParserProperties.

(** ** The divider of [highlight] is never in the code *)

Lemma startsWith_true (pat s : jsstring) :
  startsWith pat s = true -> exists rest, s = pat ++ rest.
Proof.
  revert s. induction pat as [|c pat IH]; intros s H.
  - now exists s.
  - destruct s as [|x s]; [discriminate|]. simpl in H.
    apply andb_true_iff in H. destruct H as [Hc Hrest].
    apply N.eqb_eq in Hc. subst x.
    destruct (IH s Hrest) as [rest ->]. now exists rest.
Qed.

Lemma includes_true (pat s : jsstring) :
  includes pat s = true -> exists before after, s = before ++ pat ++ after.
Proof.
  induction s as [|c s IH]; simpl; intro H.
  - apply startsWith_true in H. destruct H as [rest H].
    exists [], rest. exact H.
  - apply orb_true_iff in H. destruct H as [H|H].
    + apply startsWith_true in H. destruct H as [rest H].
      exists [], rest. exact H.
    + destruct (IH H) as (before & after & ->).
      now exists (c :: before), after.
Qed.

(** Two texts that agree cut at their first line feed in the same
    place. *)
Lemma first_nl_unique (x : jsstring) :
  forall x' y y',
    ~ In nl x -> ~ In nl x' ->
    x ++ nl :: y = x' ++ nl :: y' -> x = x' /\ y = y'.
Proof.
  induction x as [|c x IH]; intros x' y y' Hx Hx' H.
  - destruct x' as [|c' x']; simpl in H.
    + injection H as ->. auto.
    + injection H as <- _. exfalso. apply Hx'. now left.
  - destruct x' as [|c' x']; simpl in H.
    + injection H as -> _. exfalso. apply Hx. now left.
    + injection H as <- H.
      destruct (IH x' y y') as [-> ->]; auto.
      * intro Hin. apply Hx. now right.
      * intro Hin. apply Hx'. now right.
Qed.

Lemma cut_at_first_nl (a : jsstring) :
  ~ In nl a \/ exists a1 a2, a = a1 ++ nl :: a2 /\ ~ In nl a1.
Proof.
  induction a as [|c a IH]; [left; intros []|].
  destruct (N.eq_dec c nl) as [->|Hc].
  - right. exists [], a. split; [reflexivity | intros []].
  - destruct IH as [Hno | (a1 & a2 & -> & Hno)].
    + left. intros [H|H]; [congruence | contradiction].
    + right. exists (c :: a1), a2. split; [reflexivity|].
      intros [H|H]; [congruence | contradiction].
Qed.

(** A text between two line feeds of the text of some lines is one of
    the lines. *)
Lemma textOf_holds_line (ls : list jsstring) :
  Forall (fun l => ~ In nl l) ls ->
  forall before line after,
    ~ In nl line ->
    textOf ls = before ++ nl :: line ++ nl :: after ->
    In line ls.
Proof.
  induction ls as [|l ls IH]; intros Hls before line after Hline H.
  - destruct before; discriminate.
  - inversion Hls as [|? ? Hl Hrest]; subst.
    change (textOf (l :: ls)) with ((l ++ [nl]) ++ textOf ls) in H.
    rewrite <- app_assoc in H. simpl in H.
    destruct (cut_at_first_nl before) as [Hno | (a1 & a2 & -> & Hno)].
    + destruct (first_nl_unique l before _ _ Hl Hno H) as [_ Hnext].
      destruct ls as [|l2 ls]; [destruct line; discriminate|].
      inversion Hrest as [|? ? Hl2 _]; subst.
      change (textOf (l2 :: ls)) with ((l2 ++ [nl]) ++ textOf ls) in Hnext.
      rewrite <- app_assoc in Hnext. simpl in Hnext.
      destruct (first_nl_unique l2 line _ _ Hl2 Hline Hnext) as [-> _].
      right. now left.
    + rewrite <- app_assoc in H. simpl in H.
      destruct (first_nl_unique l a1 _ _ Hl Hno H) as [_ Hnext].
      right. exact (IH Hrest a2 line after Hline Hnext).
Qed.

(** X13. With the JavaScript rules, the code of no section that
    [parseSections] returns holds the divider text that [highlight] joins
    the code of the sections with: the divider is a single-line comment
    between two line feeds, and such a line is never code. So the
    dividers in what is sent to pygments are those [highlight] put
    there. *)
Theorem divider_is_never_in_code
    (doxRender : jsstring -> Completion jsstring) (data : jsstring) :
  Forall (fun s => includes (divText javascript) (code s) = false)
         (parseWith doxRender javascript data).
Proof.
  assert (H : Forall (codeOfLines javascript)
                (parseWith doxRender javascript data)).
  { apply run_codeOfLines.
    - apply split_nl_lines.
    - constructor.
    - exists []. split; [reflexivity | constructor]. }
  eapply Forall_impl; [|exact H].
  intros s (ls & Hcode & Hls).
  destruct (includes (divText javascript) (code s)) eqn:E; [|reflexivity].
  exfalso. apply includes_true in E. destruct E as (before & after & E).
  rewrite Hcode in E.
  change (divText javascript) with ([nl] ++ dividerLine ++ [nl]) in E.
  rewrite <- !app_assoc in E. simpl in E.
  assert (Hdiv : ~ In nl dividerLine).
  { intro Hin. vm_compute in Hin. repeat destruct Hin as [Hin|Hin];
      try discriminate. exact Hin. }
  assert (Hin : In dividerLine ls).
  { apply (textOf_holds_line ls) with (before := before) (after := after).
    - eapply Forall_impl; [|exact Hls]. now intros l [Hl _].
    - exact Hdiv.
    - exact E. }
  rewrite Forall_forall in Hls. destruct (Hls _ Hin) as [_ Hcomment].
  discriminate.
Qed.

(** ** What [highlight] sends to pygments *)

Lemma jsstring_eqb_eq (a : jsstring) :
  forall b, jsstring_eqb a b = true -> a = b.
Proof.
  induction a as [|x a IH]; intros [|y b] H; try discriminate;
    [reflexivity|].
  simpl in H. apply andb_true_iff in H. destruct H as [Hx Hrest].
  apply N.eqb_eq in Hx. now rewrite Hx, (IH b Hrest).
Qed.

Lemma split_nl_line (l rest : jsstring) :
  ~ In nl l -> split_nl (l ++ nl :: rest) = l :: split_nl rest.
Proof.
  induction l as [|c l IH]; intro H; [reflexivity|].
  simpl. destruct (c =? nl) eqn:E.
  - apply N.eqb_eq in E. exfalso. apply H. now left.
  - rewrite IH; [reflexivity|]. intro Hin. apply H. now right.
Qed.

Lemma split_nl_textOf (ls : list jsstring) (rest : jsstring) :
  Forall (fun l => ~ In nl l) ls ->
  split_nl (textOf ls ++ rest) = ls ++ split_nl rest.
Proof.
  induction ls as [|l ls IH]; intro H; [reflexivity|].
  inversion H as [|? ? Hl Hls]; subst.
  change (textOf (l :: ls)) with ((l ++ [nl]) ++ textOf ls).
  rewrite <- !app_assoc. simpl.
  now rewrite (split_nl_line l _ Hl), (IH Hls).
Qed.

Lemma no_code_line_is_divider (ls : list jsstring) :
  Forall (codeLineOf javascript) ls ->
  filter (jsstring_eqb dividerLine) ls = [].
Proof.
  induction ls as [|l ls IH]; intro H; [reflexivity|].
  inversion H as [|? ? [_ Hl] Hls]; subst.
  change (filter (jsstring_eqb dividerLine) (l :: ls))
    with (if jsstring_eqb dividerLine l
          then l :: filter (jsstring_eqb dividerLine) ls
          else filter (jsstring_eqb dividerLine) ls).
  destruct (jsstring_eqb dividerLine l) eqn:E; [|exact (IH Hls)].
  apply jsstring_eqb_eq in E. subst l. discriminate.
Qed.

Lemma dividers_of_code (s : Sec) (rest : jsstring) :
  codeOfLines javascript s ->
  filter (jsstring_eqb dividerLine) (split_nl (code s ++ rest))
  = filter (jsstring_eqb dividerLine) (split_nl rest).
Proof.
  intros (ls & -> & Hls).
  rewrite split_nl_textOf, filter_app, (no_code_line_is_divider ls Hls).
  - reflexivity.
  - eapply Forall_impl; [|exact Hls]. now intros l [Hl _].
Qed.

Lemma dividers_of_pygmentsInput (secs : list Sec) :
  Forall (codeOfLines javascript) secs ->
  List.length
    (filter (jsstring_eqb dividerLine)
       (split_nl (pygmentsInput javascript secs)))
  = (List.length secs - 1)%nat.
Proof.
  unfold pygmentsInput.
  induction secs as [|s secs IH]; intro H; [reflexivity|].
  inversion H as [|? ? Hs Hsecs]; subst.
  destruct secs as [|s2 secs].
  - change (joinWith (divText javascript) (map code [s])) with (code s).
    rewrite <- (app_nil_r (code s)), (dividers_of_code s [] Hs).
    reflexivity.
  - change (joinWith (divText javascript) (map code (s :: s2 :: secs)))
      with (code s ++ divText javascript
            ++ joinWith (divText javascript) (map code (s2 :: secs))).
    rewrite (dividers_of_code s _ Hs).
    specialize (IH Hsecs).
    set (later := joinWith (divText javascript) (map code (s2 :: secs))) in *.
    change (divText javascript ++ later)
      with ([] ++ nl :: dividerLine ++ nl :: later).
    rewrite (split_nl_line [] _ (fun H => H)).
    rewrite split_nl_line.
    + change (filter (jsstring_eqb dividerLine) ([] :: dividerLine :: ?x))
        with (dividerLine :: filter (jsstring_eqb dividerLine) x).
      change (List.length (dividerLine :: ?x)) with (S (List.length x)).
      rewrite IH.
      change (List.length (s :: s2 :: secs))
        with (S (List.length (s2 :: secs))).
      change (List.length (s2 :: secs)) with (S (List.length secs)). lia.
    + intro Hin. vm_compute in Hin.
      repeat destruct Hin as [Hin|Hin]; try discriminate. exact Hin.
Qed.

(** X14. With the JavaScript rules, the text [highlight] sends to
    pygments for the sections of a file has exactly one divider line
    less than there are sections: one between each two, and none that
    came from the code. *)
Theorem pygments_input_has_one_divider_between_sections
    (doxRender : jsstring -> Completion jsstring) (data : jsstring) :
  let secs := parseWith doxRender javascript data in
  List.length
    (filter (jsstring_eqb dividerLine)
       (split_nl (pygmentsInput javascript secs)))
  = (List.length secs - 1)%nat.
Proof.
  intro secs. apply dividers_of_pygmentsInput.
  apply run_codeOfLines.
  - apply split_nl_lines.
  - constructor.
  - exists []. split; [reflexivity | constructor].
Qed.

(** ** Texts without a multi-line comment *)

Lemma step_outside_block
    (dox1 dox2 : jsstring -> Completion jsstring) (p : LanguageParams)
    (st : State) (line : jsstring) :
  inMultiLineComment st = false ->
  opensMultiLine p line = false ->
  parseLine dox1 p st line = parseLine dox2 p st line
  /\ inMultiLineComment (parseLine dox1 p st line) = false
  /\ console (parseLine dox1 p st line) = console st.
Proof.
  intros Hout Ho. unfold parseLine. rewrite Hout, Ho.
  destruct (isSingleComment p line); simpl.
  - now rewrite storeSection_inMultiLineComment, storeSection_console.
  - destruct (negb _); simpl; auto.
Qed.

Lemma run_outside_block
    (dox1 dox2 : jsstring -> Completion jsstring) (p : LanguageParams)
    (lines : list jsstring) :
  forall st,
    inMultiLineComment st = false ->
    Forall (fun l => opensMultiLine p l = false) lines ->
    runFrom dox1 p st lines = runFrom dox2 p st lines
    /\ console (runFrom dox1 p st lines) = console st.
Proof.
  induction lines as [|l ls IH]; intros st Hout Hall; [auto|].
  inversion Hall as [|? ? Hl Hls]; subst.
  destruct (step_outside_block dox1 dox2 p st l Hout Hl) as (Heq & Hin & Hc).
  unfold runFrom. simpl. fold (runFrom dox1 p) (runFrom dox2 p).
  rewrite <- Heq, <- Hc. now apply IH.
Qed.

(** X15. A text in which no line opens a multi-line comment never
    reaches dox: the sections do not depend on what dox would do, and
    nothing is written to the console. *)
Theorem no_block_no_dox
    (dox1 dox2 : jsstring -> Completion jsstring) (p : LanguageParams)
    (data : jsstring) :
  Forall (fun l => opensMultiLine p l = false) (split_nl data) ->
  parseWith dox1 p data = parseWith dox2 p data
  /\ console (runLines dox1 p (split_nl data)) = [].
Proof.
  intro H. unfold parseWith, runLines.
  destruct (run_outside_block dox1 dox2 p (split_nl data) initState
              eq_refl H) as [Heq Hc].
  split; [now rewrite Heq | exact Hc].
Qed.

(** ** The theorems of the Docker object and of the parser at concrete
    inputs *)

Ltac absent :=
  let H := fresh "H" in
  intro H; vm_compute in H;
  repeat (destruct H as [H|H]; [discriminate|]); exact H.

(** X2 at the input directory [src/], the output directory [doc] and the
    file [src/lib/a.js]. *)
Lemma outFile_under_inDir_witness :
  outFile (newDocker (str "src/") (str "doc")) (str "src" ++ str "/lib/a.js")
  = str "doc" ++ str "/lib/a.js" ++ str ".html".
Proof.
  apply (outFile_under_inDir (newDocker (str "src/") (str "doc"))
           (str "/lib/a.js")).
  absent.
Defined.

(** X3 at the input directory [./src] and the file name [src/a.js], in
    which [./src] does not occur. *)
Lemma outFile_outside_inDir_witness :
  outFile (newDocker (str "./src") (str "doc")) (str "src/a.js")
  = str "src/a.js" ++ str ".html".
Proof.
  apply (outFile_outside_inDir (newDocker (str "./src") (str "doc"))
           (str "src/a.js")).
  reflexivity.
Defined.

(** X4 at the output directory [out$&]. *)
Lemma outFile_dollar_ampersand_witness :
  outFile (newDocker (str "src") (str "out$&")) (str "src" ++ str "/a.js")
  = str "out" ++ str "src" ++ [] ++ str "/a.js" ++ str ".html".
Proof.
  apply (outFile_dollar_ampersand (newDocker (str "src") (str "out$&"))
           (str "out") [] (str "/a.js")).
  - reflexivity.
  - absent.
  - absent.
Defined.

(** X5 after three files were queued. *)
Lemma generates_one_file_at_a_time_witness :
  (List.length (generating driverAfterThreeQueued) <= 1)%nat
  /\ (running (docker driverAfterThreeQueued) = true
      <-> generating driverAfterThreeQueued <> [])
  /\ (running (docker driverAfterThreeQueued) = false
      -> fileQueue (docker driverAfterThreeQueued) = []).
Proof.
  apply (generates_one_file_at_a_time lastDotOn (str "src") (str "doc")
           threeQueued driverAfterThreeQueued).
  reflexivity.
Defined.

(** X6 after three files were queued. *)
Lemma queue_is_first_in_first_out_witness :
  generated driverAfterThreeQueued
  ++ fileQueue (docker driverAfterThreeQueued)
  = filter (canHandleFile lastDotOn) (queuedFiles threeQueued).
Proof.
  apply (queue_is_first_in_first_out lastDotOn (str "src") (str "doc")
           threeQueued driverAfterThreeQueued).
  reflexivity.
Defined.

(** X7 after three files were queued and both callbacks came. *)
Lemma idle_driver_has_generated_everything_witness :
  generated driverAtRest
  = filter (canHandleFile lastDotOn) (queuedFiles threeQueuedBothDone)
  /\ fileQueue (docker driverAtRest) = []
  /\ running (docker driverAtRest) = false.
Proof.
  apply (idle_driver_has_generated_everything lastDotOn (str "src")
           (str "doc") threeQueuedBothDone driverAtRest);
    reflexivity.
Defined.

(** X9 at a block of three lines that dox returns as it is, read after
    the code [var a;] and followed by the code [f();]. *)
Lemma dox_success_puts_rendered_text_witness :
  finish
    (runFrom doxEcho javascript afterCode
       (str "/**" :: [str " * hi"] ++ str " */" :: [str "f();"]))
  = [ {| docs := []; code := str "var a;" ++ [nl] |};
      {| docs := str "/** * hi" ++ [nl] ++ str " */" ++ [nl];
         code := str "f();" ++ [nl] |} ].
Proof.
  rewrite (dox_success_puts_rendered_text doxEcho javascript afterCode
             (str "/**") (str " */")
             (str "/** * hi" ++ [nl] ++ str " */" ++ [nl])
             [str " * hi"] [str "f();"]);
    try reflexivity.
  repeat constructor.
Defined.

(** X12 at the text ["a = 1\nb = 2"]. *)
Lemma text_without_comments_is_one_section_witness :
  parseWith doxThrows javascript (joinLines [str "a = 1"; str "b = 2"])
  = [ {| docs := [];
         code := joinLines [str "a = 1"; str "b = 2"] ++ [nl] |} ].
Proof.
  apply (text_without_comments_is_one_section doxThrows javascript
           (joinLines [str "a = 1"; str "b = 2"])).
  repeat constructor.
Defined.

(** X15 at the text ["// c\nx"], for a dox that throws and one that
    returns. *)
Lemma no_block_no_dox_witness :
  parseWith doxThrows javascript (joinLines [str "// c"; str "x"])
  = parseWith doxEcho javascript (joinLines [str "// c"; str "x"])
  /\ console (runLines doxThrows javascript
               (split_nl (joinLines [str "// c"; str "x"]))) = [].
Proof.
  apply (no_block_no_dox doxThrows doxEcho javascript
           (joinLines [str "// c"; str "x"])).
  repeat constructor.
Defined.

(** The sections formed in ["\n// a\nx"]: the one of the empty line,
    blank in code and docs, is formed at the comment and discarded. *)
Example formed_sections_of_blank_first_text :
  formedFrom doxThrows javascript initState (split_nl blankFirstText)
  = [ {| docs := []; code := [nl] |} ]
  /\ parseWith doxThrows javascript blankFirstText
     = [ {| docs := str "a" ++ [nl]; code := str "x" ++ [nl] |} ].
Proof. split; reflexivity. Qed.
